(** * Build orchestration of fbprophet's setup.py

    A shallow embedding of [src/setup.py]: backend selection from the
    environment ([get_backends_from_env]), the model build loop
    ([build_models]), the two lifecycle hooks ([BuildPyCommand.run],
    [DevelopCommand.run]) and the sandboxed test runner
    ([TestCommand.with_project_on_sys_path]).

    Library calls whose behaviour belongs to setuptools, distutils,
    pkg_resources or the compiled toolchains are kept abstract as Section
    variables: they act on an opaque file system [FS] or on the Python
    import state, and may raise.  The model itself records an event trace
    of the calls the code under verification makes, so that claims about
    ordering and about which calls happen can be stated. *)

From Stdlib Require Import String Ascii List Bool Lia.
Import ListNotations.
Open Scope string_scope.
Open Scope list_scope.

(** ** Python strings and the environment *)

(** [s.split(sep)] for a one-character separator [sep], as Python does it:
    an empty string gives [[""]], and a separator produces an empty piece
    wherever two of them meet or one sits at an end. *)
Fixpoint str_split (sep : ascii) (s : string) : list string :=
  match s with
  | EmptyString => [EmptyString]
  | String c rest =>
      let parts := str_split sep rest in
      if Ascii.eqb c sep then EmptyString :: parts
      else match parts with
           | p :: ps => String c p :: ps
           | [] => [String c EmptyString]
           end
  end.

(** [sep.join(xs)]. *)
Fixpoint str_join (sep : string) (xs : list string) : string :=
  match xs with
  | [] => EmptyString
  | [x] => x
  | x :: rest => (x ++ sep ++ str_join sep rest)%string
  end.

(** [os.environ]: a mapping from variable names to values. *)
Definition environ := list (string * string).

Fixpoint environ_lookup (k : string) (e : environ) : option string :=
  match e with
  | [] => None
  | (k', v) :: rest => if String.eqb k k' then Some v else environ_lookup k rest
  end.

(** [os.environ.get(k, default)]. *)
Definition environ_get (k default : string) (e : environ) : string :=
  match environ_lookup k e with
  | Some v => v
  | None => default
  end.

(** [StanBackendEnum.PYSTAN.name]: the name of an [Enum] member is the
    identifier it is declared under. *)
Definition PYSTAN_name : string := "PYSTAN".

(** [get_backends_from_env()] (setup.py, lines 30-32). *)
Definition get_backends_from_env (e : environ) : list string :=
  str_split "," (environ_get "STAN_BACKEND" PYSTAN_name e).

(** ** Paths *)

(** [str.startswith]. *)
Definition startswith (p s : string) : bool := String.prefix p s.

Fixpoint endswith (suf s : string) : bool :=
  match s with
  | EmptyString => String.eqb suf EmptyString
  | String _ rest => String.eqb suf s || endswith suf rest
  end.

(** [os.path.join(a, b)] for two components, following [posixpath.join]
    with the host separator [sep]: an absolute [b] replaces [a], otherwise a
    separator is added unless [a] is empty or already ends in one. *)
Definition os_path_join (sep a b : string) : string :=
  if startswith sep b then b
  else if String.eqb a EmptyString || endswith sep a then (a ++ b)%string
  else (a ++ sep ++ b)%string.

(** [platform.platform().startswith('Win')] decides both [PLATFORM] and
    the separator [os.path.join] uses. *)
Definition host_is_win (platform_str : string) : bool := startswith "Win" platform_str.

Definition os_sep (platform_str : string) : string :=
  if host_is_win platform_str then "\" else "/".

Definition PLATFORM (platform_str : string) : string :=
  if host_is_win platform_str then "win" else "unix".

Definition MODEL_DIR (platform_str : string) : string :=
  os_path_join (os_sep platform_str) "stan" (PLATFORM platform_str).

Definition MODEL_TARGET_DIR (platform_str : string) : string :=
  os_path_join (os_sep platform_str) "fbprophet" "stan_model".

(** ** Exceptions, events and the Python import state *)

Inductive exn : Type :=
| ConfigurationError (value : string)
| BuildError (backend cause : string)
| OSError (msg : string)
| RequirementError (req : string)
| TestFailure (msg : string).

Inductive hook : Type := HBuildPy | HDevelop.

(** The calls made by the code under verification, in the order it makes
    them. *)
Inductive event : Type :=
| EvMkpath (dir : string)
| EvResolve (name : string)
| EvBuild (name target_dir model_dir : string)
| EvDefault (h : hook) (dry_run : bool)
| EvEggInfo (egg_base : string)
| EvBuildExt
| EvPathInsert (entry : string) (new_path : list string)
| EvWorkingSetInit
| EvListener
| EvRequire (req : string)
| EvFunc
| EvRestore.

Inductive result (A : Type) : Type :=
| Ok (a : A)
| Err (e : exn).
Arguments Ok {A} a.
Arguments Err {A} e.

(** ** Reading requirements.txt (setup.py, lines 117-118)

    A Python [str] is modelled as a [string] of code points below 256. *)

Definition LF : ascii := ascii_of_nat 10.
Definition CR : ascii := ascii_of_nat 13.

(** [open('requirements.txt', 'r').read()] opens in text mode with
    universal newlines: each ["\r\n"] and each lone ["\r"] reads as
    ["\n"]. *)
Fixpoint universal_newlines (s : string) : string :=
  match s with
  | EmptyString => EmptyString
  | String c rest =>
      if Ascii.eqb c CR then
        match rest with
        | String c2 rest2 =>
            if Ascii.eqb c2 LF then String LF (universal_newlines rest2)
            else String LF (universal_newlines rest)
        | EmptyString => String LF EmptyString
        end
      else String c (universal_newlines rest)
  end.

(** The line boundaries of [str.splitlines] among code points below 256:
    [\n], [\x0b], [\x0c], [\r], [\x1c], [\x1d], [\x1e] and [\x85]. *)
Definition is_line_boundary (c : ascii) : bool :=
  existsb (fun n => Nat.eqb (nat_of_ascii c) n) [10; 11; 12; 13; 28; 29; 30; 133].

(** [s.splitlines()]: a boundary ends the current line ([\r\n] counting
    as one boundary); a final line without a boundary is kept; no empty
    line is added after a final boundary. *)
Fixpoint splitlines (s : string) : list string :=
  match s with
  | EmptyString => []
  | String c rest =>
      if is_line_boundary c then
        if Ascii.eqb c CR then
          match rest with
          | String c2 rest2 => if Ascii.eqb c2 LF then "" :: splitlines rest2
                               else "" :: splitlines rest
          | EmptyString => [""]
          end
        else "" :: splitlines rest
      else
        match splitlines rest with
        | [] => [String c EmptyString]
        | p :: ps => String c p :: ps
        end
  end.

(** [install_requires = f.read().splitlines()] for the file's decoded
    contents. *)
Definition install_requires (contents : string) : list string :=
  splitlines (universal_newlines contents).

(** A file whose lines [ls] each end in [eol]. *)
Fixpoint lines_with (eol : string) (ls : list string) : string :=
  match ls with
  | [] => EmptyString
  | l :: rest => (l ++ eol ++ lines_with eol rest)%string
  end.

(** ** A concrete host

    A small host on which to run the model: the file system is the list of
    paths written so far; [mkpath] and the builders add paths; the
    [CMDSTANPY] toolchain is missing, so its builder raises. *)

Definition demo_platform : string := "Linux-5.15.0-x86_64-with-glibc2.35".
Definition demo_build_lib : string := "build/lib".
Definition demo_setup_path : string := "/home/dev/prophet/python".

Definition demo_mkpath (d : string) (files : list string) : option exn * list string :=
  (None, d :: files).

(** [mkpath] on a directory the user may not write. *)
Definition demo_mkpath_denied (d : string) (files : list string)
  : option exn * list string :=
  (Some (OSError ("[Errno 13] Permission denied: " ++ d)), files).

Definition demo_pystan_build (target_dir model_dir : string) (files : list string)
  : option exn * list string :=
  (None, (target_dir ++ "/prophet_model.pkl")%string :: files).

Definition demo_cmdstanpy_build (target_dir model_dir : string) (files : list string)
  : option exn * list string :=
  (Some (BuildError "CMDSTANPY" "cmdstan not installed"), files).

Definition demo_registry
  : list (string * (string -> string -> list string -> option exn * list string)) :=
  [("PYSTAN", demo_pystan_build); ("CMDSTANPY", demo_cmdstanpy_build)].

Definition demo_default (h : hook) (dry_run : bool) (files : list string)
  : option exn * list string :=
  (None, if dry_run then files else "dist" :: files).

Definition demo_normalize_path (p : string) : string :=
  ("/home/dev/prophet/python/" ++ p)%string.

Definition demo_egg_info (egg_base : string) (files : list string)
  : option exn * list string :=
  (None, (egg_base ++ "/fbprophet.egg-info")%string :: files).

Definition demo_build_ext (files : list string) : option exn * list string :=
  (None, files).

(** ** The program *)

Section Host.

#[local] Set Default Proof Using "Type".

(** The file system, [pkg_resources.working_set] and the module objects
    held by [sys.modules] are opaque. *)
Context {FS WS Module : Type}.

(** The process-wide import state: [sys.path], [sys.modules] (a dict, kept
    as an association list in insertion order) and the working set. *)
Record pystate : Type := mkPy {
  sys_path : list string;
  sys_modules : list (string * Module);
  working_set : WS
}.

Record world : Type := mkWorld {
  env : environ;
  fs : FS;
  py : pystate;
  trace : list event
}.

(** Statements run against the world and either return or raise; what
    they changed before raising stays changed, as in Python. *)
Definition M (A : Type) : Type := world -> result A * world.

Definition ret {A : Type} (a : A) : M A := fun w => (Ok a, w).

Definition bind {A B : Type} (m : M A) (k : A -> M B) : M B :=
  fun w =>
    match m w with
    | (Ok a, w1) => k a w1
    | (Err e, w1) => (Err e, w1)
    end.

Local Notation "x <- m ;; k" := (bind m (fun x => k))
  (at level 61, m at next level, right associativity).
Local Notation "m ;; k" := (bind m (fun _ => k))
  (at level 61, right associativity).

Definition get : M world := fun w => (Ok w, w).

Definition raise {A : Type} (e : exn) : M A := fun w => (Err e, w).

Definition log (ev : event) : M unit :=
  fun w => (Ok tt, mkWorld (env w) (fs w) (py w) (trace w ++ [ev])).

Definition of_outcome (o : option exn) : result unit :=
  match o with
  | None => Ok tt
  | Some e => Err e
  end.

(** A library call acting on the file system. *)
Definition lift_fs (f : FS -> option exn * FS) : M unit :=
  fun w => let (o, fs') := f (fs w) in
           (of_outcome o, mkWorld (env w) fs' (py w) (trace w)).

(** A library call acting on the import state. *)
Definition lift_py (f : pystate -> option exn * pystate) : M unit :=
  fun w => let (o, p') := f (py w) in
           (of_outcome o, mkWorld (env w) (fs w) p' (trace w)).

Definition modify_py (f : pystate -> pystate) : M unit :=
  fun w => (Ok tt, mkWorld (env w) (fs w) (f (py w)) (trace w)).

(** A Python [for] loop whose body may raise. *)
Fixpoint for_each {A : Type} (xs : list A) (body : A -> M unit) : M unit :=
  match xs with
  | [] => ret tt
  | x :: rest => body x ;; for_each rest body
  end.

(** [try: body finally: cleanup]: the cleanup runs on every exit; an
    exception it raises replaces the body's outcome. *)
Definition try_finally (body cleanup : M unit) : M unit :=
  fun w =>
    match body w with
    | (r, w1) =>
        match cleanup w1 with
        | (Ok _, w2) => (r, w2)
        | (Err e, w2) => (Err e, w2)
        end
    end.

(** *** Backend registry *)

(** A model builder: [build_model(target_dir, model_dir)]. *)
Definition Builder : Type := string -> string -> FS -> option exn * FS.

(** The registry's fixed set of backend names with their builders. *)
Context {registry : list (string * Builder)}.

Fixpoint registry_lookup (name : string) (reg : list (string * Builder))
  : option Builder :=
  match reg with
  | [] => None
  | (n, b) :: rest => if String.eqb name n then Some b else registry_lookup name rest
  end.

(** Modelled from the spec: [StanBackendEnum.get_backend_class] lives in
    fbprophet/models.py, which is not part of src/.  Per the spec (4.1) it
    resolves a name of the fixed set to its builder and fails with a
    [ConfigurationError] naming the value otherwise; it has no side effect
    (the model records the call in the trace). *)
Definition get_backend_class (name : string) : M Builder :=
  log (EvResolve name) ;;
  match registry_lookup name registry with
  | Some b => ret b
  | None => raise (ConfigurationError name)
  end.

(** [cls.build_model(target_dir, model_dir)] for the builder [cls]
    resolved from [backend]. *)
Definition build_model (cls : Builder) (backend target_dir model_dir : string)
  : M unit :=
  log (EvBuild backend target_dir model_dir) ;;
  lift_fs (cls target_dir model_dir).

(** *** Build orchestration (setup.py, lines 35-38) *)

Context {platform_str : string}.

(** The loop body, line 38. *)
Definition build_models_body (target_dir backend : string) : M unit :=
  cls <- get_backend_class backend ;;
  build_model cls backend target_dir (MODEL_DIR platform_str).

Definition build_models (target_dir : string) : M unit :=
  w <- get ;;
  for_each (get_backends_from_env (env w)) (build_models_body target_dir).

(** *** Lifecycle hooks (setup.py, lines 41-62) *)

(** [self.mkpath], the wrapped [build_py.run] / [develop.run] (given the
    command's [dry_run] flag), and the command attributes [build_lib] and
    [setup_path]. *)
Context {mkpath : string -> FS -> option exn * FS}.
Context {default_run : hook -> bool -> FS -> option exn * FS}.
Context {build_lib setup_path : string}.

Definition self_mkpath (d : string) : M unit :=
  log (EvMkpath d) ;; lift_fs (mkpath d).

Definition default_action (h : hook) (dry_run : bool) : M unit :=
  log (EvDefault h dry_run) ;; lift_fs (default_run h dry_run).

Definition BuildPyCommand_run (dry_run : bool) : M unit :=
  (if negb dry_run then
     let target_dir :=
       os_path_join (os_sep platform_str) build_lib (MODEL_TARGET_DIR platform_str) in
     self_mkpath target_dir ;;
     build_models target_dir
   else ret tt) ;;
  default_action HBuildPy dry_run.

Definition DevelopCommand_run (dry_run : bool) : M unit :=
  (if negb dry_run then
     let target_dir :=
       os_path_join (os_sep platform_str) setup_path (MODEL_TARGET_DIR platform_str) in
     self_mkpath target_dir ;;
     build_models target_dir
   else ret tt) ;;
  default_action HDevelop dry_run.

Definition run_hook (h : hook) : bool -> M unit :=
  match h with
  | HBuildPy => BuildPyCommand_run
  | HDevelop => DevelopCommand_run
  end.

(** The target directory each hook computes. *)
Definition hook_target (h : hook) : string :=
  os_path_join (os_sep platform_str)
    (match h with HBuildPy => build_lib | HDevelop => setup_path end)
    (MODEL_TARGET_DIR platform_str).

(** *** Sandboxed test runner (setup.py, lines 85-114) *)

(** [normalize_path], the [egg_info] and [build_ext] commands run with the
    given [egg_base], the egg's name and version as [egg_info] finalizes
    them, [working_set.__init__()] (a fresh working set from [sys.path]),
    [add_activation_listener(lambda dist: dist.activate())] and
    [require(req)]; the last two may activate distributions, and so change
    the import state, and may raise. *)
Context {normalize_path : string -> string}.
Context {egg_info_run : string -> FS -> option exn * FS}.
Context {build_ext_run : FS -> option exn * FS}.
Context {egg_name egg_version : string}.
Context {ws_init : list string -> WS}.
Context {add_activation_listener : pystate -> option exn * pystate}.
Context {require : string -> pystate -> option exn * pystate}.

(** [d[k] = v] on a dict: an existing key keeps its position. *)
Fixpoint dict_setitem (k : string) (v : Module) (d : list (string * Module))
  : list (string * Module) :=
  match d with
  | [] => [(k, v)]
  | (k', v') :: rest =>
      if String.eqb k k' then (k', v) :: rest else (k', v') :: dict_setitem k v rest
  end.

(** [d.update(src)]. *)
Definition dict_update (d src : list (string * Module)) : list (string * Module) :=
  fold_left (fun acc kv => dict_setitem (fst kv) (snd kv) acc) src d.

(** [sys.path.insert(0, entry)]; the trace records the resulting path. *)
Definition sys_path_insert0 (entry : string) : M unit :=
  modify_py (fun p => mkPy (entry :: sys_path p) (sys_modules p) (working_set p)) ;;
  w <- get ;;
  log (EvPathInsert entry (sys_path (py w))).

(** [working_set.__init__()]. *)
Definition working_set_reinit : M unit :=
  modify_py (fun p => mkPy (sys_path p) (sys_modules p) (ws_init (sys_path p))).

(** The test function [func]: it may change the import state and the file
    system, and returns or raises. *)
Definition TestFunc : Type := pystate -> FS -> option exn * (pystate * FS).

Definition call_func (func : TestFunc) : M unit :=
  log EvFunc ;;
  fun w => let (o, pf) := func (py w) (fs w) in
           (of_outcome o, mkWorld (env w) (snd pf) (fst pf) (trace w)).

(** Lines 101-114: snapshot, [try] block, [finally] block. *)
Definition sandboxed_run (egg_base : string) (func : TestFunc) : M unit :=
  w0 <- get ;;
  let old_path := sys_path (py w0) in
  let old_modules := sys_modules (py w0) in
  try_finally
    (sys_path_insert0 (normalize_path egg_base) ;;
     working_set_reinit ;; log EvWorkingSetInit ;;
     log EvListener ;; lift_py add_activation_listener ;;
     let req := (egg_name ++ "==" ++ egg_version)%string in
     log (EvRequire req) ;; lift_py (require req) ;;
     call_func func)
    (modify_py (fun p => mkPy old_path (sys_modules p) (working_set p)) ;;
     modify_py (fun p => mkPy (sys_path p) [] (working_set p)) ;;
     modify_py (fun p => mkPy (sys_path p) (dict_update (sys_modules p) old_modules)
                               (working_set p)) ;;
     working_set_reinit ;;
     log EvRestore).

(** [TestCommand.with_project_on_sys_path(func)]: the [build_py] command
    (with the distribution's [dry_run] flag), then [egg_info] with
    [egg_base] the normalized build directory, then [build_ext], then the
    sandboxed run against [ei_cmd.egg_base]. *)
Definition with_project_on_sys_path (dry_run : bool) (func : TestFunc) : M unit :=
  BuildPyCommand_run dry_run ;;
  let build_path := normalize_path build_lib in
  log (EvEggInfo build_path) ;; lift_fs (egg_info_run build_path) ;;
  log EvBuildExt ;; lift_fs build_ext_run ;;
  sandboxed_run build_path func.

(** *** Options of the test command (setup.py, lines 74-81) *)

(** Option values as distutils stores them: [None], a boolean, an integer
    (a flag given on the command line is stored as [1]) or a string (from
    a configuration file). *)
Inductive pyval : Type :=
| PyNone
| PyBool (b : bool)
| PyInt (n : nat)
| PyStr (s : string).

(** The attributes the setuptools [test] command manages itself are
    opaque ([Rest]); its [initialize_options] and [finalize_options] act on
    them, and the latter may raise. *)
Context {Rest : Type}.
Context {super_initialize_options : Rest -> Rest}.
Context {super_finalize_options : Rest -> option exn * Rest}.

Record test_command : Type := mkTestCommand {
  tc_rest : Rest;
  test_slow : pyval
}.

Definition initialize_options (self : test_command) : test_command :=
  mkTestCommand (super_initialize_options (tc_rest self)) (PyBool false).

(** [setattr(self, 'test_slow', v)], as distutils does for each value given
    on the command line or in a configuration file. *)
Definition set_test_slow (v : pyval) (self : test_command) : test_command :=
  mkTestCommand (tc_rest self) v.

(** [finalize_options], given the distribution's [test_slow] attribute if
    it has one. *)
Definition finalize_options (dist_test_slow : option pyval) (self : test_command)
  : result test_command :=
  match super_finalize_options (tc_rest self) with
  | (Some e, _) => Err e
  | (None, r) =>
      Ok (mkTestCommand r
            (match test_slow self with
             | PyNone => match dist_test_slow with
                         | Some v => v
                         | None => PyBool false
                         end
             | v => v
             end))
  end.

(** *** The orchestrator as the spec words it *)

(** Spec 4.4: for each name of the selection list in order, resolve it in
    the registry and invoke the resolved builder with the model source
    location and the target directory, stopping at the first error.  Stated
    without the monad, for comparison with [build_models]. *)
Fixpoint orchestrate_spec (names : list string) (target_dir : string) (w : world)
  : result unit * world :=
  match names with
  | [] => (Ok tt, w)
  | n :: rest =>
      let tr := trace w ++ [EvResolve n] in
      match registry_lookup n registry with
      | None => (Err (ConfigurationError n), mkWorld (env w) (fs w) (py w) tr)
      | Some b =>
          let tr' := tr ++ [EvBuild n target_dir (MODEL_DIR platform_str)] in
          match b target_dir (MODEL_DIR platform_str) (fs w) with
          | (Some e, fs') => (Err e, mkWorld (env w) fs' (py w) tr')
          | (None, fs') => orchestrate_spec rest target_dir (mkWorld (env w) fs' (py w) tr')
          end
      end
  end.

(** The trace a selection list produces when every name resolves and
    builds. *)
Definition build_events (target_dir : string) (names : list string) : list event :=
  flat_map (fun n => [EvResolve n; EvBuild n target_dir (MODEL_DIR platform_str)]) names.

(** ** Proofs *)

(** *** The monad *)

Lemma for_each_app {A : Type} (l1 l2 : list A) (body : A -> M unit) (w : world) :
  for_each (l1 ++ l2) body w =
  match for_each l1 body w with
  | (Ok _, w1) => for_each l2 body w1
  | (Err e, w1) => (Err e, w1)
  end.
Proof.
  revert w; induction l1 as [|x l1 IH]; intro w; [reflexivity|].
  simpl; unfold bind.
  destruct (body x w) as [[u|e] w1]; [apply IH|reflexivity].
Qed.

(** *** The build loop against the spec's orchestrator *)

Lemma for_each_orchestrate (target_dir : string) (names : list string) (w : world) :
  for_each names (build_models_body target_dir) w = orchestrate_spec names target_dir w.
Proof.
  revert w; induction names as [|n names IH]; intro w; [reflexivity|].
  simpl; unfold bind, build_models_body, get_backend_class, build_model, bind, log,
    lift_fs, ret, raise; simpl.
  destruct (registry_lookup n registry) as [b|]; [|reflexivity]; simpl.
  destruct (b target_dir (MODEL_DIR platform_str) (fs w)) as [[e|] fs']; simpl.
  - reflexivity.
  - apply IH.
Qed.

Lemma orchestrate_spec_ok (target_dir : string) (names : list string) (w w' : world) :
  orchestrate_spec names target_dir w = (Ok tt, w') ->
  w' = mkWorld (env w) (fs w') (py w) (trace w ++ build_events target_dir names).
Proof.
  revert w; induction names as [|n names IH]; intros w H; simpl in H.
  - inversion H; subst; destruct w'; simpl; rewrite app_nil_r; reflexivity.
  - destruct (registry_lookup n registry) as [b|]; [|discriminate].
    destruct (b target_dir (MODEL_DIR platform_str) (fs w)) as [[e|] fs']; [discriminate|].
    apply IH in H; simpl in H; rewrite H; simpl.
    rewrite <- !app_assoc; reflexivity.
Qed.

Lemma orchestrate_spec_appends (target_dir : string) (names : list string) (w : world) :
  exists l, trace (snd (orchestrate_spec names target_dir w)) = trace w ++ l.
Proof.
  revert w; induction names as [|n names IH]; intro w; simpl.
  - exists []; rewrite app_nil_r; reflexivity.
  - destruct (registry_lookup n registry) as [b|]; simpl.
    + destruct (b target_dir (MODEL_DIR platform_str) (fs w)) as [[e|] fs']; simpl.
      * eexists; rewrite <- app_assoc; reflexivity.
      * destruct (IH (mkWorld (env w) fs' (py w)
                    ((trace w ++ [EvResolve n]) ++ [EvBuild n target_dir (MODEL_DIR platform_str)])))
          as [l Hl].
        rewrite Hl; simpl; eexists; rewrite <- !app_assoc; reflexivity.
    + eexists; reflexivity.
Qed.

Lemma registry_lookup_none (n : string) (reg : list (string * Builder)) :
  ~ In n (map fst reg) -> registry_lookup n reg = None.
Proof.
  induction reg as [|[n' b] reg IH]; intro H; [reflexivity|].
  simpl in *; destruct (String.eqb n n') eqn:E.
  - apply String.eqb_eq in E; subst n'; exfalso; apply H; left; reflexivity.
  - apply IH; intro Hin; apply H; right; exact Hin.
Qed.

(** *** The hooks *)

Lemma build_models_spec (target_dir : string) (w : world) :
  build_models target_dir w =
  orchestrate_spec (get_backends_from_env (env w)) target_dir w.
Proof. unfold build_models, bind, get; apply for_each_orchestrate. Qed.

Lemma run_hook_not_dry (h : hook) (w : world) :
  run_hook h false w =
  bind (self_mkpath (hook_target h) ;; build_models (hook_target h))
       (fun _ => default_action h false) w.
Proof. destruct h; reflexivity. Qed.

(** *** Import-state dicts *)

Lemma dict_setitem_fresh (k : string) (v : Module) (d : list (string * Module)) :
  ~ In k (map fst d) -> dict_setitem k v d = d ++ [(k, v)].
Proof.
  induction d as [|[k' v'] d IH]; intro H; [reflexivity|].
  simpl in *; destruct (String.eqb k k') eqn:E.
  - apply String.eqb_eq in E; subst k'; exfalso; apply H; left; reflexivity.
  - rewrite IH; [reflexivity|]; intro Hin; apply H; right; exact Hin.
Qed.

Lemma dict_update_fresh (src acc : list (string * Module)) :
  NoDup (map fst (acc ++ src)) -> dict_update acc src = acc ++ src.
Proof.
  revert acc; induction src as [|[k v] src IH]; intros acc Hnd.
  - rewrite app_nil_r; reflexivity.
  - unfold dict_update; simpl.
    rewrite dict_setitem_fresh.
    + fold (dict_update (acc ++ [(k, v)]) src).
      rewrite IH; [rewrite <- app_assoc; reflexivity|].
      rewrite <- app_assoc; exact Hnd.
    + rewrite map_app in Hnd; simpl in Hnd.
      apply NoDup_remove_2 in Hnd; rewrite in_app_iff in Hnd.
      intro Hin; apply Hnd; left; exact Hin.
Qed.

(** The world a [try]/[finally] leaves is the one its cleanup leaves. *)
Lemma try_finally_snd (body cleanup : M unit) (w : world) :
  snd (try_finally body cleanup w) = snd (cleanup (snd (body w))).
Proof.
  unfold try_finally; destruct (body w) as [r w1]; simpl.
  destruct (cleanup w1) as [[u|e] w2]; reflexivity.
Qed.

(** An event is absent from a concrete list of other events. *)
Ltac not_in_events :=
  let Hin := fresh "Hin" in
  intro Hin; simpl in Hin;
  repeat (destruct Hin as [Hin|Hin]; [discriminate Hin|]);
  destruct Hin.

(** ** Claims *)

(** Claim C3: with [STAN_BACKEND] unset, the selection is exactly the
    one-element list holding the default backend name. *)
Theorem select_unset_default (e : environ) :
  environ_lookup "STAN_BACKEND" e = None ->
  get_backends_from_env e = [PYSTAN_name].
Proof. intro H; unfold get_backends_from_env, environ_get; rewrite H; reflexivity. Qed.

(** Claim C4: with [STAN_BACKEND] set to ["a,b,c"], the selection is
    [["a"; "b"; "c"]], in that order. *)
Theorem select_abc_in_order (e : environ) :
  environ_lookup "STAN_BACKEND" e = Some "a,b,c" ->
  get_backends_from_env e = ["a"; "b"; "c"].
Proof. intro H; unfold get_backends_from_env, environ_get; rewrite H; reflexivity. Qed.

(** Claim C8: the build loop is the spec's orchestrator: for each name of
    the selection list in order it resolves the name in the registry and
    invokes the resolved builder with [MODEL_DIR] and the target directory,
    once per occurrence, stopping at the first error; a run that completes
    has made exactly the calls [build_events] lists. *)
Theorem build_models_sequential (target_dir : string) (w : world) :
  build_models target_dir w =
  orchestrate_spec (get_backends_from_env (env w)) target_dir w /\
  (forall w', build_models target_dir w = (Ok tt, w') ->
   trace w' = trace w ++ build_events target_dir (get_backends_from_env (env w))).
Proof.
  split; [apply build_models_spec|].
  intros w' H; rewrite build_models_spec in H.
  apply orchestrate_spec_ok in H; rewrite H; reflexivity.
Qed.

(** Claim C7: with [dry_run] set, either hook only runs the wrapped default
    action: no directory is made, no name resolved, no builder invoked; the
    file system changes only as the default action changes it. *)
Theorem dry_run_only_default (h : hook) (w : world) :
  run_hook h true w =
  (of_outcome (fst (default_run h true (fs w))),
   mkWorld (env w) (snd (default_run h true (fs w))) (py w)
     (trace w ++ [EvDefault h true])).
Proof.
  destruct h; simpl; unfold BuildPyCommand_run, DevelopCommand_run, default_action,
    bind, ret, log, lift_fs; simpl;
  destruct (default_run _ true (fs w)); reflexivity.
Qed.

(** Claim C1: when the builder of a selected name fails (the names before
    it having built), the hook raises that builder's error with the names
    after it never resolved or built and the default action never run;
    [with_project_on_sys_path] raises it too, before any test runs. *)
Theorem build_failure_aborts_hook (h : hook) (w : world) (pre post : list string)
    (n : string) (b : Builder) (e : exn) (fs0 fs2 : FS) (w1 : world) :
  get_backends_from_env (env w) = pre ++ n :: post ->
  mkpath (hook_target h) (fs w) = (None, fs0) ->
  for_each pre (build_models_body (hook_target h))
    (mkWorld (env w) fs0 (py w) (trace w ++ [EvMkpath (hook_target h)])) = (Ok tt, w1) ->
  registry_lookup n registry = Some b ->
  b (hook_target h) (MODEL_DIR platform_str) (fs w1) = (Some e, fs2) ->
  let w_fail :=
    mkWorld (env w) fs2 (py w)
      (trace w ++ EvMkpath (hook_target h) :: build_events (hook_target h) pre ++
       [EvResolve n; EvBuild n (hook_target h) (MODEL_DIR platform_str)]) in
  run_hook h false w = (Err e, w_fail) /\
  (h = HBuildPy -> forall dry func, dry = false ->
   with_project_on_sys_path dry func w = (Err e, w_fail)).
Proof.
  intros Hsel Hmk Hpre Hn Hb w_fail.
  assert (Hrun : run_hook h false w = (Err e, w_fail)).
  { rewrite run_hook_not_dry.
    unfold bind at 1; unfold bind at 1.
    unfold self_mkpath, bind, log, lift_fs; simpl; rewrite Hmk; simpl.
    rewrite build_models_spec; simpl; rewrite Hsel.
    rewrite <- for_each_orchestrate, for_each_app, Hpre.
    rewrite for_each_orchestrate in Hpre.
    apply orchestrate_spec_ok in Hpre; simpl in Hpre.
    rewrite for_each_orchestrate; simpl; rewrite Hn.
    rewrite Hpre in Hb |- *; simpl in Hb |- *; rewrite Hb; simpl.
    unfold w_fail; rewrite <- !app_assoc; reflexivity. }
  split; [exact Hrun|].
  intros -> dry func ->; unfold with_project_on_sys_path, bind at 1.
  simpl in Hrun; rewrite Hrun; reflexivity.
Qed.

Lemma str_split_nonempty (sep : ascii) (s : string) : str_split sep s <> [].
Proof.
  destruct s as [|c rest]; simpl; [discriminate|].
  destruct (Ascii.eqb c sep); [discriminate|].
  destruct (str_split sep rest); discriminate.
Qed.

Lemma str_split_no_sep (sep : ascii) (s : string) :
  (forall c, In c (list_ascii_of_string s) -> c <> sep) -> str_split sep s = [s].
Proof.
  induction s as [|c rest IH]; intro H; [reflexivity|].
  simpl; rewrite IH by (intros c' Hc'; apply H; simpl; auto).
  destruct (Ascii.eqb c sep) eqn:E; [|reflexivity].
  apply Ascii.eqb_eq in E; exfalso; apply (H c); simpl; auto.
Qed.

(** Claim C5: [STAN_BACKEND] set to the empty string selects the single
    empty name, and resolving it raises [ConfigurationError ""] (the
    registry holding no blank name), before any builder runs. *)
Theorem select_empty_fails_resolution (target_dir : string) (w : world) :
  environ_lookup "STAN_BACKEND" (env w) = Some "" ->
  ~ In "" (map fst registry) ->
  get_backends_from_env (env w) = [""] /\
  build_models target_dir w =
  (Err (ConfigurationError ""), mkWorld (env w) (fs w) (py w) (trace w ++ [EvResolve ""])).
Proof.
  intros Henv Hreg.
  assert (Hsel : get_backends_from_env (env w) = [""])
    by (unfold get_backends_from_env, environ_get; rewrite Henv; reflexivity).
  split; [exact Hsel|].
  rewrite build_models_spec, Hsel; simpl.
  rewrite (registry_lookup_none "" registry Hreg); reflexivity.
Qed.

(** Claim C6 (amended): when [STAN_BACKEND] is a single name (no comma)
    outside the registry and the target directory is made, the standard
    build hook raises [ConfigurationError] naming that value, no builder
    runs and the default packaging step is never reached. *)
Theorem unsupported_backend_fails (w : world) (s : string) (fs0 : FS) :
  environ_lookup "STAN_BACKEND" (env w) = Some s ->
  (forall c, In c (list_ascii_of_string s) -> c <> ","%char) ->
  ~ In s (map fst registry) ->
  mkpath (hook_target HBuildPy) (fs w) = (None, fs0) ->
  BuildPyCommand_run false w =
  (Err (ConfigurationError s),
   mkWorld (env w) fs0 (py w)
     (trace w ++ [EvMkpath (hook_target HBuildPy); EvResolve s])).
Proof.
  intros Henv Hnc Hreg Hmk.
  change (BuildPyCommand_run false w) with (run_hook HBuildPy false w).
  rewrite run_hook_not_dry.
  unfold bind at 1; unfold bind at 1.
  unfold self_mkpath, bind, log, lift_fs; simpl; rewrite Hmk; simpl.
  rewrite build_models_spec; simpl.
  unfold get_backends_from_env, environ_get; rewrite Henv, str_split_no_sep by exact Hnc.
  simpl; rewrite (registry_lookup_none s registry Hreg); simpl.
  rewrite <- app_assoc; reflexivity.
Qed.

(** Claim C10 (amended): every state of the environment gives a non-empty
    selection; so a hook run without [dry_run] whose target directory is
    made resolves the first selected name right after [mkpath], and, when
    that name resolves, invokes its builder right after. *)
Theorem selection_nonempty_resolves (h : hook) (w : world) (fs0 : FS) :
  mkpath (hook_target h) (fs w) = (None, fs0) ->
  (forall e, get_backends_from_env e <> []) /\
  exists n rest sfx,
    get_backends_from_env (env w) = n :: rest /\
    trace (snd (run_hook h false w)) =
      trace w ++ [EvMkpath (hook_target h); EvResolve n] ++ sfx /\
    (registry_lookup n registry <> None ->
     exists sfx', sfx = EvBuild n (hook_target h) (MODEL_DIR platform_str) :: sfx').
Proof.
  intro Hmk; split; [intro e; apply str_split_nonempty|].
  destruct (get_backends_from_env (env w)) as [|n rest] eqn:Hsel;
    [exfalso; exact (str_split_nonempty _ _ Hsel)|].
  rewrite run_hook_not_dry.
  unfold bind at 1; unfold bind at 1.
  unfold self_mkpath, bind, log, lift_fs; simpl; rewrite Hmk; simpl.
  rewrite build_models_spec; simpl; rewrite Hsel; simpl.
  destruct (registry_lookup n registry) as [b|] eqn:Hn.
  - simpl; destruct (b (hook_target h) (MODEL_DIR platform_str) fs0) as [[e|] fs'].
    + simpl; exists n, rest, [EvBuild n (hook_target h) (MODEL_DIR platform_str)].
      split; [reflexivity|]; split; [rewrite <- !app_assoc; reflexivity|].
      intros _; eexists; reflexivity.
    + simpl.
      match goal with
      | |- context [orchestrate_spec rest ?t ?w2] =>
          destruct (orchestrate_spec_appends t rest w2) as [l Hl];
          destruct (orchestrate_spec rest t w2) as [[u|e] w3]
      end; simpl in Hl |- *.
      * unfold default_action, bind, log, lift_fs; simpl.
        destruct (default_run h false (fs w3)) as [o fs4]; simpl.
        exists n, rest, (EvBuild n (hook_target h) (MODEL_DIR platform_str) :: l ++
                         [EvDefault h false]).
        split; [reflexivity|]; split.
        -- rewrite Hl; rewrite <- !app_assoc; reflexivity.
        -- intros _; eexists; reflexivity.
      * exists n, rest, (EvBuild n (hook_target h) (MODEL_DIR platform_str) :: l).
        split; [reflexivity|]; split.
        -- rewrite Hl; rewrite <- !app_assoc; reflexivity.
        -- intros _; eexists; reflexivity.
  - simpl; exists n, rest, []; split; [reflexivity|]; split.
    + rewrite <- !app_assoc; reflexivity.
    + intro Hc; contradiction.
Qed.

(** Claim C2: whatever the setup calls and the test function do, and
    whether the run returns or raises, the sandboxed run (lines 101-114)
    leaves [sys.path] and [sys.modules] equal to their values on entry
    ([sys.modules] being a dict, its keys are distinct). *)
Theorem sandbox_restores_import_state (egg_base : string) (func : TestFunc) (w : world) :
  NoDup (map fst (sys_modules (py w))) ->
  sys_path (py (snd (sandboxed_run egg_base func w))) = sys_path (py w) /\
  sys_modules (py (snd (sandboxed_run egg_base func w))) = sys_modules (py w).
Proof.
  intro Hnd.
  assert (Hpy : py (snd (sandboxed_run egg_base func w)) =
                mkPy (sys_path (py w)) (dict_update [] (sys_modules (py w)))
                     (ws_init (sys_path (py w)))).
  { unfold sandboxed_run; unfold bind at 1; unfold get.
    rewrite try_finally_snd.
    match goal with
    | |- context [snd (_ (snd (?body w)))] => generalize (snd (body w)); intro w1
    end.
    reflexivity. }
  rewrite Hpy; simpl; split; [reflexivity|].
  apply dict_update_fresh; exact Hnd.
Qed.

(** Claim C9: in the sandboxed run, the test function is called only after
    the normalized staging location has been put at the front of
    [sys.path], the working set rebuilt, the activation listener added and
    [require("name==version")] called; when [require] raises, the run
    raises that error and the test function is never called. *)
Theorem sandbox_setup_before_func (egg_base : string) (func : TestFunc) (w : world) :
  let loc := normalize_path egg_base in
  let req := (egg_name ++ "==" ++ egg_version)%string in
  let ps0 := mkPy (loc :: sys_path (py w)) (sys_modules (py w))
                  (ws_init (loc :: sys_path (py w))) in
  exists new,
    trace (snd (sandboxed_run egg_base func w)) = trace w ++ new /\
    (In EvFunc new ->
     exists post,
       new = [EvPathInsert loc (loc :: sys_path (py w)); EvWorkingSetInit; EvListener;
              EvRequire req; EvFunc] ++ post) /\
    (forall ps1 ps2 e,
       add_activation_listener ps0 = (None, ps1) ->
       require req ps1 = (Some e, ps2) ->
       fst (sandboxed_run egg_base func w) = Err e /\ ~ In EvFunc new).
Proof.
  intros loc req ps0.
  unfold sandboxed_run, try_finally, bind, get, sys_path_insert0, working_set_reinit,
    modify_py, log, lift_py, call_func; simpl.
  fold loc req.
  change (mkPy (loc :: sys_path (py w)) (sys_modules (py w))
            (ws_init (loc :: sys_path (py w)))) with ps0.
  destruct (add_activation_listener ps0) as [[e1|] ps1] eqn:Hl; simpl.
  - eexists; split; [rewrite <- !app_assoc; reflexivity|]; split.
    + not_in_events.
    + intros ps1' ps2 e Hl' _.
      discriminate Hl'.
  - change (egg_name ++ String "=" (String "=" egg_version))%string with req.
    destruct (require req ps1) as [[e2|] ps2] eqn:Hr; simpl.
    + eexists; split; [rewrite <- !app_assoc; reflexivity|]; split.
      * not_in_events.
      * intros ps1' ps2' e Hl' Hr'.
        injection Hl' as <-.
        rewrite Hr in Hr'; injection Hr' as <- _.
        split; [reflexivity|].
        not_in_events.
    + unfold bind, log; simpl.
      destruct (func ps2 (fs w)) as [o [ps3 fs3]]; simpl.
      eexists; split; [rewrite <- !app_assoc; reflexivity|]; split.
      * intros _; eexists; reflexivity.
      * intros ps1' ps2' e Hl' Hr'.
        injection Hl' as <-.
        rewrite Hr in Hr'; discriminate.
Qed.

(** ** Further properties of setup.py *)

(** *** [str.split] and [str.join] *)

Definition no_char (sep : ascii) (s : string) : Prop :=
  forall c, In c (list_ascii_of_string s) -> c <> sep.

Lemma str_split_app_sep (sep : ascii) (x r : string) :
  no_char sep x -> str_split sep (x ++ String sep r) = x :: str_split sep r.
Proof.
  induction x as [|c x IH]; intro H; simpl.
  - rewrite Ascii.eqb_refl; reflexivity.
  - rewrite IH by (intros c' Hc'; apply H; simpl; auto).
    destruct (Ascii.eqb c sep) eqn:E; [|reflexivity].
    apply Ascii.eqb_eq in E; exfalso; apply (H c); simpl; auto.
Qed.

Lemma str_split_join (sep : ascii) (names : list string) :
  names <> [] -> Forall (no_char sep) names ->
  str_split sep (str_join (String sep EmptyString) names) = names.
Proof.
  induction names as [|x rest IH]; intros Hne Hall; [contradiction|].
  inversion Hall as [|? ? Hx Hrest]; subst.
  destruct rest as [|y rest'].
  - apply str_split_no_sep; exact Hx.
  - change (str_join (String sep EmptyString) (x :: y :: rest'))
      with (x ++ String sep (str_join (String sep EmptyString) (y :: rest')))%string.
    rewrite str_split_app_sep by exact Hx.
    rewrite IH; [reflexivity|discriminate|exact Hrest].
Qed.

Lemma str_join_cons_char (sep : string) (c : ascii) (p : string) (ps : list string) :
  str_join sep (String c p :: ps) = String c (str_join sep (p :: ps)).
Proof. destruct ps; reflexivity. Qed.

Lemma str_join_split (sep : ascii) (s : string) :
  str_join (String sep EmptyString) (str_split sep s) = s.
Proof.
  induction s as [|c rest IH]; [reflexivity|]; simpl.
  destruct (Ascii.eqb c sep) eqn:E.
  - apply Ascii.eqb_eq in E; subst c.
    destruct (str_split sep rest) as [|p ps] eqn:Hs;
      [exfalso; exact (str_split_nonempty _ _ Hs)|].
    change (str_join (String sep EmptyString) (EmptyString :: p :: ps))
      with (String sep (str_join (String sep EmptyString) (p :: ps))).
    rewrite IH; reflexivity.
  - destruct (str_split sep rest) as [|p ps] eqn:Hs;
      [exfalso; exact (str_split_nonempty _ _ Hs)|].
    rewrite str_join_cons_char, IH; reflexivity.
Qed.

Lemma str_split_pieces (sep : ascii) (s : string) :
  Forall (no_char sep) (str_split sep s).
Proof.
  induction s as [|c rest IH]; simpl.
  - constructor; [intros c Hc; destruct Hc|constructor].
  - destruct (Ascii.eqb c sep) eqn:E.
    + constructor; [intros c' Hc; destruct Hc|exact IH].
    + destruct (str_split sep rest) as [|p ps];
        [constructor; [|constructor]|inversion IH as [|? ? Hp Hps]; subst; constructor; [|exact Hps]];
        intros c' [Hc|Hc]; subst;
        try (intro Heq; subst; rewrite Ascii.eqb_refl in E; discriminate).
      * destruct Hc.
      * apply Hp; exact Hc.
Qed.

Lemma str_split_length (sep : ascii) (s : string) :
  length (str_split sep s) = S (count_occ ascii_dec (list_ascii_of_string s) sep).
Proof.
  induction s as [|c rest IH]; [reflexivity|]; simpl.
  destruct (Ascii.eqb c sep) eqn:E.
  - apply Ascii.eqb_eq in E; subst c.
    destruct (ascii_dec sep sep) as [_|n]; [simpl; rewrite IH; reflexivity|congruence].
  - destruct (ascii_dec c sep) as [Heq|_].
    + subst; rewrite Ascii.eqb_refl in E; discriminate.
    + destruct (str_split sep rest) as [|p ps]; simpl in *; [discriminate|exact IH].
Qed.

(** *** Backend selection *)

(** [get_backends_from_env] gives back, in order and with repetitions, any
    non-empty list of comma-free names written comma-separated into
    [STAN_BACKEND]. *)
Theorem get_backends_join_roundtrip (e : environ) (names : list string) :
  names <> [] -> Forall (no_char ",") names ->
  environ_lookup "STAN_BACKEND" e = Some (str_join "," names) ->
  get_backends_from_env e = names.
Proof.
  intros Hne Hall Henv.
  unfold get_backends_from_env, environ_get; rewrite Henv.
  apply str_split_join; assumption.
Qed.

(** The selected names contain no comma, and joining them with commas
    gives back the variable's value ([PYSTAN] when unset): nothing of the
    value is dropped, not even empty names. *)
Theorem get_backends_join_value (e : environ) :
  str_join "," (get_backends_from_env e) = environ_get "STAN_BACKEND" PYSTAN_name e /\
  Forall (no_char ",") (get_backends_from_env e).
Proof.
  split; [apply str_join_split | apply str_split_pieces].
Qed.

(** The number of selected names is one more than the number of commas in
    the variable's value. *)
Theorem get_backends_count (e : environ) :
  length (get_backends_from_env e) =
  S (count_occ ascii_dec (list_ascii_of_string (environ_get "STAN_BACKEND" PYSTAN_name e))
       ","%char).
Proof. apply str_split_length. Qed.

(** *** Requirements *)

Definition no_boundary (s : string) : Prop :=
  forall c, In c (list_ascii_of_string s) -> is_line_boundary c = false.

Lemma universal_newlines_app (l r : string) :
  no_boundary l -> universal_newlines (l ++ r) = (l ++ universal_newlines r)%string.
Proof.
  induction l as [|c l IH]; intro H; [reflexivity|]; simpl.
  assert (Hc : Ascii.eqb c CR = false).
  { destruct (Ascii.eqb c CR) eqn:E; [|reflexivity].
    apply Ascii.eqb_eq in E; subst c.
    specialize (H CR (or_introl eq_refl)); discriminate H. }
  rewrite Hc, IH by (intros c' Hc'; apply H; simpl; auto); reflexivity.
Qed.

Lemma splitlines_app_lf (l r : string) :
  no_boundary l -> splitlines (l ++ String LF r) = l :: splitlines r.
Proof.
  induction l as [|c l IH]; intro H; [reflexivity|]; simpl.
  rewrite (H c (or_introl eq_refl)).
  rewrite IH by (intros c' Hc'; apply H; simpl; auto); reflexivity.
Qed.

(** Each line of requirements.txt becomes one entry of [install_requires],
    in order, whether lines end in ["\n"] or in ["\r\n"]: a blank line gives
    an empty entry and the final line ending adds none. *)
Theorem install_requires_lines (ls : list string) :
  Forall no_boundary ls ->
  install_requires (lines_with (String LF EmptyString) ls) = ls /\
  install_requires (lines_with (String CR (String LF EmptyString)) ls) = ls.
Proof.
  unfold install_requires.
  induction ls as [|l ls IH]; intro Hall; [split; reflexivity|].
  inversion Hall as [|? ? Hl Hls]; subst.
  destruct (IH Hls) as [IH1 IH2].
  simpl lines_with; rewrite !universal_newlines_app by exact Hl.
  split; simpl; rewrite splitlines_app_lf by exact Hl; f_equal; assumption.
Qed.

Lemma splitlines_pieces_le (n : nat) (s : string) :
  String.length s <= n -> Forall no_boundary (splitlines s).
Proof.
  revert s; induction n as [|n IH]; intros s Hlen.
  - destruct s; [constructor|simpl in Hlen; inversion Hlen].
  - destruct s as [|c rest]; [constructor|]; simpl in Hlen |- *.
    assert (Hempty : no_boundary EmptyString) by (intros c' Hc'; destruct Hc').
    destruct (is_line_boundary c) eqn:B.
    + destruct (Ascii.eqb c CR).
      * destruct rest as [|c2 rest2]; [constructor; [exact Hempty|constructor]|].
        simpl in Hlen.
        destruct (Ascii.eqb c2 LF); constructor; try exact Hempty; apply IH; simpl; lia.
      * constructor; [exact Hempty|apply IH; lia].
    + specialize (IH rest ltac:(lia)).
      destruct (splitlines rest) as [|p ps].
      * constructor; [|constructor].
        intros c' [Hc'|[]]; subst; exact B.
      * inversion IH as [|? ? Hp Hps]; subst; constructor; [|exact Hps].
        intros c' [Hc'|Hc']; [subst; exact B|apply Hp; exact Hc'].
Qed.

(** No entry of [install_requires] contains a line break of any kind. *)
Theorem install_requires_no_line_breaks (contents : string) :
  Forall no_boundary (install_requires contents).
Proof. apply (splitlines_pieces_le (String.length (universal_newlines contents))); lia. Qed.

(** *** Paths *)

(** [MODEL_DIR] and [MODEL_TARGET_DIR] for every platform: Windows hosts
    get ["stan\win"] and ["fbprophet\stan_model"], every other host
    ["stan/unix"] and ["fbprophet/stan_model"]. *)
Theorem model_dirs_by_platform (p : string) :
  (host_is_win p = true ->
   MODEL_DIR p = "stan\win" /\ MODEL_TARGET_DIR p = "fbprophet\stan_model") /\
  (host_is_win p = false ->
   MODEL_DIR p = "stan/unix" /\ MODEL_TARGET_DIR p = "fbprophet/stan_model").
Proof.
  unfold MODEL_DIR, MODEL_TARGET_DIR, PLATFORM, os_sep.
  split; intro H; rewrite H; split; reflexivity.
Qed.

(** On a non-Windows host the models go to [fbprophet/stan_model] under the
    hook's base directory ([build_lib] for [build_py], [setup_path] for
    [develop]), when that directory is named without a trailing slash. *)
Theorem hook_target_posix (h : hook) :
  host_is_win platform_str = false ->
  let base := match h with HBuildPy => build_lib | HDevelop => setup_path end in
  base <> EmptyString -> endswith "/" base = false ->
  hook_target h = (base ++ "/fbprophet/stan_model")%string.
Proof.
  intros Hw base Hne Hend.
  unfold hook_target, MODEL_TARGET_DIR, os_sep; rewrite Hw; fold base.
  unfold os_path_join at 1; simpl.
  rewrite Hend, orb_false_r.
  destruct (String.eqb base EmptyString) eqn:E;
    [apply String.eqb_eq in E; contradiction | reflexivity].
Qed.

(** *** The hooks against the world *)















(** When [mkpath] raises, the hook raises the same error with no name
    resolved, no builder invoked and the default action never run. *)
Theorem hook_mkpath_failure (h : hook) (w : world) (e : exn) (fs1 : FS) :
  mkpath (hook_target h) (fs w) = (Some e, fs1) ->
  run_hook h false w =
  (Err e, mkWorld (env w) fs1 (py w) (trace w ++ [EvMkpath (hook_target h)])).
Proof.
  intro Hmk; rewrite run_hook_not_dry.
  unfold bind at 1; unfold bind at 1.
  unfold self_mkpath, bind, log, lift_fs; simpl; rewrite Hmk; reflexivity.
Qed.

(** When the target directory is made and every selected backend builds,
    the hook runs the default action last: its outcome is the hook's
    outcome, and the trace is [mkpath], then one resolution and one build
    per selected name in order, then the default action. *)
Theorem hook_success (h : hook) (w w1 : world) (fs0 : FS) :
  mkpath (hook_target h) (fs w) = (None, fs0) ->
  build_models (hook_target h)
    (mkWorld (env w) fs0 (py w) (trace w ++ [EvMkpath (hook_target h)])) = (Ok tt, w1) ->
  run_hook h false w =
  (of_outcome (fst (default_run h false (fs w1))),
   mkWorld (env w) (snd (default_run h false (fs w1))) (py w)
     (trace w ++ EvMkpath (hook_target h) ::
      build_events (hook_target h) (get_backends_from_env (env w)) ++ [EvDefault h false])).
Proof.
  intros Hmk Hbm; rewrite run_hook_not_dry.
  unfold bind at 1; unfold bind at 1.
  unfold self_mkpath, bind at 1, log, lift_fs at 1; simpl; rewrite Hmk; simpl.
  rewrite Hbm.
  rewrite build_models_spec in Hbm; apply orchestrate_spec_ok in Hbm; simpl in Hbm.
  rewrite Hbm; unfold default_action, bind, log, lift_fs; simpl.
  destruct (default_run h false (fs w1)) as [o fs2]; simpl.
  rewrite <- !app_assoc; reflexivity.
Qed.

(** *** The test runner *)





(** After [build_py] returns, an [egg_info] or [build_ext] failure is
    raised before [sys.path] is touched and before any test runs; when both
    succeed, the sandboxed run starts from the normalized [build_lib]. *)
Theorem with_project_setup_steps (dry_run : bool) (func : TestFunc) (w w1 : world)
    (fs1 : FS) :
  let bp := normalize_path build_lib in
  BuildPyCommand_run dry_run w = (Ok tt, w1) ->
  (forall e, egg_info_run bp (fs w1) = (Some e, fs1) ->
   with_project_on_sys_path dry_run func w =
   (Err e, mkWorld (env w1) fs1 (py w1) (trace w1 ++ [EvEggInfo bp]))) /\
  (egg_info_run bp (fs w1) = (None, fs1) ->
   forall e fs2, build_ext_run fs1 = (Some e, fs2) ->
   with_project_on_sys_path dry_run func w =
   (Err e, mkWorld (env w1) fs2 (py w1) (trace w1 ++ [EvEggInfo bp; EvBuildExt]))) /\
  (egg_info_run bp (fs w1) = (None, fs1) ->
   forall fs2, build_ext_run fs1 = (None, fs2) ->
   with_project_on_sys_path dry_run func w =
   sandboxed_run bp func
     (mkWorld (env w1) fs2 (py w1) (trace w1 ++ [EvEggInfo bp; EvBuildExt]))).
Proof.
  intros bp Hbp; subst bp.
  unfold with_project_on_sys_path, bind, log, lift_fs; rewrite Hbp; simpl.
  split; [|split].
  - intros e He; rewrite He; reflexivity.
  - intros Hei e fs2 Hbe; rewrite Hei; simpl; rewrite Hbe; simpl.
    rewrite <- app_assoc; reflexivity.
  - intros Hei fs2 Hbe; rewrite Hei; simpl; rewrite Hbe; simpl.
    rewrite <- app_assoc; reflexivity.
Qed.

(** *** Options *)

Lemma last_cons_default {A : Type} (v d : A) (l : list A) : last (v :: l) d = last l v.
Proof.
  revert v d; induction l as [|x l IH]; intros v d; [reflexivity|].
  change (last (x :: l) d = last (x :: l) v); rewrite !IH; reflexivity.
Qed.

Lemma last_Forall {A : Type} (P : A -> Prop) (l : list A) (d : A) :
  Forall P l -> P d -> P (last l d).
Proof.
  revert d; induction l as [|x l IH]; intros d Hl Hd; [exact Hd|].
  inversion Hl; subst; rewrite last_cons_default; apply IH; assumption.
Qed.

Lemma set_test_slow_fold (vs : list pyval) (c : test_command) :
  test_slow (fold_left (fun c v => set_test_slow v c) vs c) = last vs (test_slow c).
Proof.
  revert c; induction vs as [|v vs IH]; intro c; [reflexivity|].
  simpl fold_left; rewrite IH, last_cons_default; reflexivity.
Qed.

(** Whatever values distutils assigns to [test_slow] after
    [initialize_options] (none of them [None]), [finalize_options] keeps
    the last one, or [False] when none is given, and ignores the
    distribution's attribute. *)
Theorem test_slow_finalized (dist_test_slow : option pyval) (self : test_command)
    (vs : list pyval) (r : Rest) :
  Forall (fun v => v <> PyNone) vs ->
  let cmd := fold_left (fun c v => set_test_slow v c) vs (initialize_options self) in
  super_finalize_options (tc_rest cmd) = (None, r) ->
  finalize_options dist_test_slow cmd = Ok (mkTestCommand r (last vs (PyBool false))).
Proof.
  intros Hvs cmd Hsup.
  assert (Hts : test_slow cmd = last vs (PyBool false))
    by (unfold cmd; rewrite set_test_slow_fold; reflexivity).
  assert (Hn : last vs (PyBool false) <> PyNone)
    by (apply last_Forall; [exact Hvs|discriminate]).
  unfold finalize_options; rewrite Hsup, Hts.
  destruct (last vs (PyBool false)); [contradiction|reflexivity..].
Qed.

End Host.

(** ** The model on the concrete host *)

Local Notation demo_run_hook :=
  (run_hook (FS := list string) (WS := list string) (Module := nat)
     (registry := demo_registry) (platform_str := demo_platform)
     (mkpath := demo_mkpath) (default_run := demo_default)
     (build_lib := demo_build_lib) (setup_path := demo_setup_path)).

Local Notation demo_build_models :=
  (build_models (FS := list string) (WS := list string) (Module := nat)
     (registry := demo_registry) (platform_str := demo_platform)).

Local Notation demo_world e :=
  (mkWorld (FS := list string) (WS := list string) (Module := nat) e []
     (mkPy ["/usr/lib/python3.8"] [("sys", 0); ("os", 1)] ["/usr/lib/python3.8"]) []).

(** The sandboxed run where [require] activates the built egg (adding a
    module) and the test function imports the tests and then fails. *)
Local Notation demo_sandboxed_run :=
  (sandboxed_run (FS := list string) (WS := list string) (Module := nat)
     (normalize_path := demo_normalize_path)
     (egg_name := "fbprophet") (egg_version := "0.6.1.dev0")
     (ws_init := fun path => path)
     (add_activation_listener := fun p => (None, p))
     (require := fun req p =>
        (None, mkPy (sys_path p) (sys_modules p ++ [("fbprophet", 7)]) (working_set p)))).

Local Notation demo_test_func :=
  (fun (p : pystate (WS := list string) (Module := nat)) (files : list string) =>
     (Some (TestFailure "test_fit_predict failed"),
      (mkPy ("tests" :: sys_path p) (sys_modules p ++ [("fbprophet.tests", 8)])
            (working_set p), files))).

Local Notation demo_target := "build/lib/fbprophet/stan_model".

(** [with_project_on_sys_path] on the concrete host, with the sandbox
    above. *)
Local Notation demo_with_project :=
  (with_project_on_sys_path (FS := list string) (WS := list string) (Module := nat)
     (registry := demo_registry) (platform_str := demo_platform)
     (mkpath := demo_mkpath) (default_run := demo_default)
     (build_lib := demo_build_lib)
     (normalize_path := demo_normalize_path) (egg_info_run := demo_egg_info)
     (build_ext_run := demo_build_ext)
     (egg_name := "fbprophet") (egg_version := "0.6.1.dev0")
     (ws_init := fun path => path)
     (add_activation_listener := fun p => (None, p))
     (require := fun req p =>
        (None, mkPy (sys_path p) (sys_modules p ++ [("fbprophet", 7)]) (working_set p)))).

(** A character list none of whose members is a given separator or a line
    boundary. *)
Ltac chars_differ :=
  let c := fresh "c" in
  let Hc := fresh "Hc" in
  intros c Hc; simpl in Hc;
  repeat (destruct Hc as [<-|Hc]; [first [discriminate | reflexivity]|]);
  destruct Hc.

(** ** Witnesses *)

Lemma select_unset_default_witness :
  environ_lookup "STAN_BACKEND" [("HOME", "/home/dev")] = None /\
  get_backends_from_env [("HOME", "/home/dev")] = ["PYSTAN"].
Proof.
  split; [reflexivity|].
  apply select_unset_default; reflexivity.
Defined.

Lemma select_abc_in_order_witness :
  get_backends_from_env [("HOME", "/home/dev"); ("STAN_BACKEND", "a,b,c")] = ["a"; "b"; "c"].
Proof. apply select_abc_in_order; reflexivity. Defined.

Lemma select_empty_fails_resolution_witness :
  demo_build_models demo_target (demo_world [("STAN_BACKEND", "")]) =
  (Err (ConfigurationError ""),
   mkWorld [("STAN_BACKEND", "")] []
     (mkPy ["/usr/lib/python3.8"] [("sys", 0); ("os", 1)] ["/usr/lib/python3.8"])
     [EvResolve ""]).
Proof.
  apply (select_empty_fails_resolution demo_target (demo_world [("STAN_BACKEND", "")]));
    [reflexivity | simpl; intros [H|[H|H]]; [discriminate H | discriminate H | exact H]].
Defined.

(** With [STAN_BACKEND=PYSTAN,CMDSTANPY,PYSTAN], the [PYSTAN] build succeeds,
    the [CMDSTANPY] build raises, the second [PYSTAN] is never built and
    packaging never starts. *)
Lemma build_failure_aborts_hook_witness :
  demo_run_hook HBuildPy false (demo_world [("STAN_BACKEND", "PYSTAN,CMDSTANPY,PYSTAN")]) =
  (Err (BuildError "CMDSTANPY" "cmdstan not installed"),
   mkWorld [("STAN_BACKEND", "PYSTAN,CMDSTANPY,PYSTAN")]
     ["build/lib/fbprophet/stan_model/prophet_model.pkl"; demo_target]
     (mkPy ["/usr/lib/python3.8"] [("sys", 0); ("os", 1)] ["/usr/lib/python3.8"])
     [EvMkpath demo_target;
      EvResolve "PYSTAN"; EvBuild "PYSTAN" demo_target "stan/unix";
      EvResolve "CMDSTANPY"; EvBuild "CMDSTANPY" demo_target "stan/unix"]).
Proof.
  exact (proj1 (build_failure_aborts_hook
    (registry := demo_registry) (platform_str := demo_platform)
    (mkpath := demo_mkpath) (default_run := demo_default)
    (build_lib := demo_build_lib) (setup_path := demo_setup_path)
    (normalize_path := demo_normalize_path) (egg_info_run := demo_egg_info)
    (build_ext_run := demo_build_ext) (egg_name := "fbprophet")
    (egg_version := "0.6.1.dev0") (ws_init := fun path => path)
    (add_activation_listener := fun p => (None, p))
    (require := fun _ p => (None, p))
    HBuildPy (demo_world [("STAN_BACKEND", "PYSTAN,CMDSTANPY,PYSTAN")])
    ["PYSTAN"] ["PYSTAN"] "CMDSTANPY" demo_cmdstanpy_build
    (BuildError "CMDSTANPY" "cmdstan not installed")
    [demo_target] ["build/lib/fbprophet/stan_model/prophet_model.pkl"; demo_target]
    (mkWorld [("STAN_BACKEND", "PYSTAN,CMDSTANPY,PYSTAN")]
       ["build/lib/fbprophet/stan_model/prophet_model.pkl"; demo_target]
       (mkPy ["/usr/lib/python3.8"] [("sys", 0); ("os", 1)] ["/usr/lib/python3.8"])
       [EvMkpath demo_target; EvResolve "PYSTAN"; EvBuild "PYSTAN" demo_target "stan/unix"])
    eq_refl eq_refl eq_refl eq_refl eq_refl)).
Defined.

(** A test run that fails after [require] has imported a module leaves
    [sys.path] and [sys.modules] as they were. *)
Lemma sandbox_restores_import_state_witness :
  sys_path (py (snd (demo_sandboxed_run "build/lib" demo_test_func
                      (demo_world [("STAN_BACKEND", "PYSTAN")])))) = ["/usr/lib/python3.8"] /\
  sys_modules (py (snd (demo_sandboxed_run "build/lib" demo_test_func
                      (demo_world [("STAN_BACKEND", "PYSTAN")])))) = [("sys", 0); ("os", 1)].
Proof.
  apply (sandbox_restores_import_state "build/lib" demo_test_func
           (demo_world [("STAN_BACKEND", "PYSTAN")])).
  simpl; constructor; [simpl; intros [H|H]; [discriminate H | exact H]|].
  constructor; [simpl; intros H; exact H | constructor].
Defined.

Lemma unsupported_backend_fails_witness :
  demo_run_hook HBuildPy false (demo_world [("STAN_BACKEND", "backendX")]) =
  (Err (ConfigurationError "backendX"),
   mkWorld [("STAN_BACKEND", "backendX")] [demo_target]
     (mkPy ["/usr/lib/python3.8"] [("sys", 0); ("os", 1)] ["/usr/lib/python3.8"])
     [EvMkpath demo_target; EvResolve "backendX"]).
Proof.
  apply (unsupported_backend_fails (registry := demo_registry)
           (platform_str := demo_platform) (mkpath := demo_mkpath)
           (default_run := demo_default) (build_lib := demo_build_lib)
           (setup_path := demo_setup_path)
           (demo_world [("STAN_BACKEND", "backendX")]) "backendX" [demo_target]).
  - reflexivity.
  - intros c Hc; simpl in Hc.
    repeat (destruct Hc as [<-|Hc]; [discriminate|]); destruct Hc.
  - simpl; intros [H|[H|H]]; [discriminate H | discriminate H | exact H].
  - reflexivity.
Defined.

Lemma selection_nonempty_resolves_witness :
  exists n rest sfx,
    get_backends_from_env [("STAN_BACKEND", "CMDSTANPY,PYSTAN")] = n :: rest /\
    trace (snd (demo_run_hook HDevelop false
                  (demo_world [("STAN_BACKEND", "CMDSTANPY,PYSTAN")]))) =
      [EvMkpath "/home/dev/prophet/python/fbprophet/stan_model"; EvResolve n] ++ sfx /\
    (registry_lookup n demo_registry <> None ->
     exists sfx', sfx = EvBuild n "/home/dev/prophet/python/fbprophet/stan_model"
                          "stan/unix" :: sfx').
Proof.
  exact (proj2 (selection_nonempty_resolves
    (registry := demo_registry) (platform_str := demo_platform)
    (mkpath := demo_mkpath) (default_run := demo_default)
    (build_lib := demo_build_lib) (setup_path := demo_setup_path)
    HDevelop
    (demo_world [("STAN_BACKEND", "CMDSTANPY,PYSTAN")])
    ["/home/dev/prophet/python/fbprophet/stan_model"] eq_refl)).
Defined.

(** [require] finds a different version of the egg: the run raises and the
    tests never start. *)
Lemma sandbox_setup_before_func_witness :
  fst (sandboxed_run (FS := list string) (WS := list string) (Module := nat)
         (normalize_path := demo_normalize_path)
         (egg_name := "fbprophet") (egg_version := "0.6.1.dev0")
         (ws_init := fun path => path)
         (add_activation_listener := fun p => (None, p))
         (require := fun req p => (Some (RequirementError req), p))
         "build/lib" demo_test_func (demo_world [("STAN_BACKEND", "PYSTAN")])) =
  Err (RequirementError "fbprophet==0.6.1.dev0").
Proof.
  destruct (sandbox_setup_before_func
              (normalize_path := demo_normalize_path)
              (egg_name := "fbprophet") (egg_version := "0.6.1.dev0")
              (ws_init := fun path => path)
              (add_activation_listener := fun p => (None, p))
              (require := fun req p => (Some (RequirementError req), p))
              "build/lib" demo_test_func (demo_world [("STAN_BACKEND", "PYSTAN")]))
    as [new [_ [_ Hreq]]].
  exact (proj1 (Hreq _ _ _ eq_refl eq_refl)).
Defined.

(** [STAN_BACKEND=PYSTAN,CMDSTANPY,PYSTAN] gives the three names back, the
    repeated one included. *)
Lemma get_backends_join_roundtrip_witness :
  get_backends_from_env [("STAN_BACKEND", "PYSTAN,CMDSTANPY,PYSTAN")] =
  ["PYSTAN"; "CMDSTANPY"; "PYSTAN"].
Proof.
  apply get_backends_join_roundtrip.
  - discriminate.
  - repeat constructor; chars_differ.
  - reflexivity.
Defined.

Lemma model_dirs_by_platform_witness :
  (MODEL_DIR "Windows-10-10.0.19041-SP0" = "stan\win" /\
   MODEL_TARGET_DIR "Windows-10-10.0.19041-SP0" = "fbprophet\stan_model") /\
  (MODEL_DIR demo_platform = "stan/unix" /\
   MODEL_TARGET_DIR demo_platform = "fbprophet/stan_model").
Proof.
  split; [apply (proj1 (model_dirs_by_platform "Windows-10-10.0.19041-SP0"))
         |apply (proj2 (model_dirs_by_platform demo_platform))]; reflexivity.
Defined.

Lemma hook_target_posix_witness :
  hook_target (platform_str := demo_platform) (build_lib := demo_build_lib)
    (setup_path := demo_setup_path) HDevelop =
  "/home/dev/prophet/python/fbprophet/stan_model".
Proof.
  apply (hook_target_posix (platform_str := demo_platform) (build_lib := demo_build_lib)
           (setup_path := demo_setup_path) HDevelop); [reflexivity|discriminate|reflexivity].
Defined.

(** [mkpath] is refused: nothing is resolved or built. *)
Lemma hook_mkpath_failure_witness :
  run_hook (FS := list string) (WS := list string) (Module := nat)
    (registry := demo_registry) (platform_str := demo_platform)
    (mkpath := demo_mkpath_denied) (default_run := demo_default)
    (build_lib := demo_build_lib) (setup_path := demo_setup_path)
    HBuildPy false (demo_world [("STAN_BACKEND", "PYSTAN")]) =
  (Err (OSError "[Errno 13] Permission denied: build/lib/fbprophet/stan_model"),
   mkWorld [("STAN_BACKEND", "PYSTAN")] []
     (mkPy ["/usr/lib/python3.8"] [("sys", 0); ("os", 1)] ["/usr/lib/python3.8"])
     [EvMkpath demo_target]).
Proof.
  exact (hook_mkpath_failure (registry := demo_registry) (platform_str := demo_platform)
    (mkpath := demo_mkpath_denied) (default_run := demo_default)
    (build_lib := demo_build_lib) (setup_path := demo_setup_path)
    HBuildPy (demo_world [("STAN_BACKEND", "PYSTAN")])
    (OSError "[Errno 13] Permission denied: build/lib/fbprophet/stan_model") [] eq_refl).
Defined.

Lemma hook_success_witness :
  demo_run_hook HBuildPy false (demo_world [("STAN_BACKEND", "PYSTAN")]) =
  (Ok tt,
   mkWorld [("STAN_BACKEND", "PYSTAN")]
     ["dist"; "build/lib/fbprophet/stan_model/prophet_model.pkl"; demo_target]
     (mkPy ["/usr/lib/python3.8"] [("sys", 0); ("os", 1)] ["/usr/lib/python3.8"])
     [EvMkpath demo_target; EvResolve "PYSTAN"; EvBuild "PYSTAN" demo_target "stan/unix";
      EvDefault HBuildPy false]).
Proof.
  exact (hook_success (registry := demo_registry) (platform_str := demo_platform)
    (mkpath := demo_mkpath) (default_run := demo_default)
    (build_lib := demo_build_lib) (setup_path := demo_setup_path)
    HBuildPy (demo_world [("STAN_BACKEND", "PYSTAN")])
    (mkWorld [("STAN_BACKEND", "PYSTAN")]
       ["build/lib/fbprophet/stan_model/prophet_model.pkl"; demo_target]
       (mkPy ["/usr/lib/python3.8"] [("sys", 0); ("os", 1)] ["/usr/lib/python3.8"])
       [EvMkpath demo_target; EvResolve "PYSTAN"; EvBuild "PYSTAN" demo_target "stan/unix"])
    [demo_target] eq_refl eq_refl).
Defined.


(** With [dry_run], [build_py] only runs its default action; [egg_info]
    and [build_ext] succeed and the sandbox starts from the normalized
    [build_lib]. *)
Lemma with_project_setup_steps_witness :
  demo_with_project true demo_test_func (demo_world [("STAN_BACKEND", "PYSTAN")]) =
  demo_sandboxed_run "/home/dev/prophet/python/build/lib" demo_test_func
    (mkWorld [("STAN_BACKEND", "PYSTAN")]
       ["/home/dev/prophet/python/build/lib/fbprophet.egg-info"]
       (mkPy ["/usr/lib/python3.8"] [("sys", 0); ("os", 1)] ["/usr/lib/python3.8"])
       [EvDefault HBuildPy true; EvEggInfo "/home/dev/prophet/python/build/lib";
        EvBuildExt]).
Proof.
  exact (proj2 (proj2 (with_project_setup_steps
    (registry := demo_registry) (platform_str := demo_platform)
    (mkpath := demo_mkpath) (default_run := demo_default)
    (build_lib := demo_build_lib)
    (normalize_path := demo_normalize_path) (egg_info_run := demo_egg_info)
    (build_ext_run := demo_build_ext)
    (egg_name := "fbprophet") (egg_version := "0.6.1.dev0")
    (ws_init := fun path => path)
    (add_activation_listener := fun p => (None, p))
    (require := fun req p =>
       (None, mkPy (sys_path p) (sys_modules p ++ [("fbprophet", 7)]) (working_set p)))
    true demo_test_func (demo_world [("STAN_BACKEND", "PYSTAN")])
    (mkWorld [("STAN_BACKEND", "PYSTAN")] []
       (mkPy ["/usr/lib/python3.8"] [("sys", 0); ("os", 1)] ["/usr/lib/python3.8"])
       [EvDefault HBuildPy true])
    ["/home/dev/prophet/python/build/lib/fbprophet.egg-info"] eq_refl))
    eq_refl ["/home/dev/prophet/python/build/lib/fbprophet.egg-info"] eq_refl).
Defined.

(** [--test-slow] on the command line (stored as [1]) wins over the
    distribution's [test_slow]. *)
Lemma test_slow_finalized_witness :
  finalize_options (Rest := unit) (super_finalize_options := fun r => (None, r))
    (Some (PyBool false))
    (fold_left (fun c v => set_test_slow v c) [PyInt 1]
       (initialize_options (super_initialize_options := fun r => r)
          (mkTestCommand tt PyNone))) =
  Ok (mkTestCommand tt (PyInt 1)).
Proof.
  apply (test_slow_finalized (Rest := unit) (super_initialize_options := fun r => r)
           (super_finalize_options := fun r => (None, r))
           (Some (PyBool false)) (mkTestCommand tt PyNone) [PyInt 1] tt).
  - constructor; [discriminate|constructor].
  - reflexivity.
Defined.

(** A requirements file with a blank line, read with either line ending. *)
Lemma install_requires_lines_witness :
  install_requires (lines_with (String LF EmptyString) ["numpy>=1.15.4"; ""; "pandas>=0.23.4"])
    = ["numpy>=1.15.4"; ""; "pandas>=0.23.4"] /\
  install_requires (lines_with (String CR (String LF EmptyString))
                      ["numpy>=1.15.4"; ""; "pandas>=0.23.4"])
    = ["numpy>=1.15.4"; ""; "pandas>=0.23.4"].
Proof.
  apply install_requires_lines.
  repeat constructor; chars_differ.
Defined.

(** ** Counterexamples *)

(** C6: ["PYSTAN,PYSTAN"] is no name of the registry, yet the hook succeeds
    (the value is split into two supported names); and ["backendX"] gives a
    file-system error, not a [ConfigurationError], when the target
    directory cannot be made. *)
Lemma unsupported_backend_fails_counterexample :
  ~ In "PYSTAN,PYSTAN" (map fst demo_registry) /\
  fst (demo_run_hook HBuildPy false (demo_world [("STAN_BACKEND", "PYSTAN,PYSTAN")])) = Ok tt /\
  fst (run_hook (FS := list string) (WS := list string) (Module := nat)
         (registry := demo_registry) (platform_str := demo_platform)
         (mkpath := demo_mkpath_denied) (default_run := demo_default)
         (build_lib := demo_build_lib) (setup_path := demo_setup_path)
         HBuildPy false (demo_world [("STAN_BACKEND", "backendX")])) =
  Err (OSError "[Errno 13] Permission denied: build/lib/fbprophet/stan_model").
Proof.
  split; [simpl; intros [H|[H|H]]; [discriminate H | discriminate H | exact H]|].
  split; vm_compute; reflexivity.
Qed.

(** C10: when [mkpath] raises, the hook makes no registry resolution. *)
Lemma selection_nonempty_resolves_counterexample :
  let r := run_hook (FS := list string) (WS := list string) (Module := nat)
             (registry := demo_registry) (platform_str := demo_platform)
             (mkpath := demo_mkpath_denied) (default_run := demo_default)
             (build_lib := demo_build_lib) (setup_path := demo_setup_path)
             HBuildPy false (demo_world [("STAN_BACKEND", "PYSTAN")]) in
  get_backends_from_env [("STAN_BACKEND", "PYSTAN")] = ["PYSTAN"] /\
  trace (snd r) = [EvMkpath demo_target] /\
  fst r = Err (OSError "[Errno 13] Permission denied: build/lib/fbprophet/stan_model").
Proof. vm_compute; repeat split. Qed.
